(** * thinking_gavin.py: a chat-command relay to the meme generator API

    The program is one Flask view, [thinking], and its helper [get_meme].
    The view reads the [text] field of the posted form, splits it on [':'],
    asks the meme generator for an image through one HTTP GET and wraps the
    image URL into a chat attachment.

    The embedding follows the Python text:
    - Python values (JSON documents, the [params] dictionary, the keyword
      arguments of [jsonify]) are the inductive type [pyval], dictionaries
      being finite maps with string keys;
    - exceptions are the values of [exn]; a computation either returns or
      raises, and threads the log of the HTTP exchanges it performed
      (the monad [M]);
    - the collaborators that live outside the file are parameters of the
      development: the process environment [environ], the JSON decoder
      [loads] behind [response.json()] and the network [net] behind
      [requests.get]. *)

From Stdlib Require Import ZArith String Ascii List Bool Lia.
From Stdlib Require Import Floats.PrimFloat.
From stdpp Require Import gmap strings list fin_maps.

Set Warnings "-register-all".


(** ** Python values *)

Module Py.

(** The values that flow through the program: [None], booleans, integers,
    floats, strings, lists and dictionaries with string keys (all that a
    JSON document can decode to). *)
Inductive pyval : Type :=
  | PNone
  | PBool (b : bool)
  | PInt (z : Z)
  | PFloat (f : float)
  | PStr (s : string)
  | PList (l : list pyval)
  | PDict (d : gmap string pyval).

(** Truth value testing, as [if img:] and [x or y] perform it: [None],
    [False], zero, the empty string and empty containers are false. *)
Definition truthy (v : pyval) : bool :=
  match v with
  | PNone => false
  | PBool b => b
  | PInt z => negb (z =? 0)%Z
  | PFloat f => negb (PrimFloat.eqb f 0%float)
  | PStr s => negb (String.eqb s "")
  | PList l => negb (Nat.eqb (length l) 0)
  | PDict d => negb (Nat.eqb (size d) 0)
  end.

(** [x or y]: [x] when it is true, otherwise [y]. *)
Definition py_or (x y : pyval) : pyval :=
  if truthy x then x else y.

(** A dictionary display [{k1: v1, ..., kn: vn}]: the items are stored left
    to right, a later item replacing an earlier one with the same key. *)
Definition dict (items : list (string * pyval)) : gmap string pyval :=
  foldl (fun d kv => <[kv.1 := kv.2]> d) ∅ items.

(** Exceptions.  [Exception args cause] is [raise Exception(args) from cause];
    [JSONDecodeError doc] carries the document that failed to decode, as the
    [doc] attribute of Python's [json.JSONDecodeError] does. *)
Inductive exn : Type :=
  | AttributeError (msg : string)
  | IndexError (msg : string)
  | KeyError (key : string)
  | TypeError (msg : string)
  | JSONDecodeError (doc : string)
  | RequestException (msg : string)
  | Exception (args : pyval) (cause : exn).

(** [s.split(sep)] for a one-character separator: the pieces of [s] between
    the occurrences of [sep], all of them, in order; a string with [n]
    occurrences yields [n + 1] pieces and the empty string yields [['']]. *)
Fixpoint split (sep : ascii) (s : string) : list string :=
  match s with
  | EmptyString => [EmptyString]
  | String c rest =>
      if Ascii.eqb c sep then EmptyString :: split sep rest
      else match split sep rest with
           | [] => [String c EmptyString]
           | p :: ps => String c p :: ps
           end
  end.

(** Number of occurrences of a character in a string ([s.count(c)]). *)
Fixpoint count_char (c : ascii) (s : string) : nat :=
  match s with
  | EmptyString => 0
  | String a rest => (if Ascii.eqb a c then 1 else 0) + count_char c rest
  end.

(** [sep.join(pieces)]. *)
Fixpoint join (sep : ascii) (pieces : list string) : string :=
  match pieces with
  | [] => EmptyString
  | [p] => p
  | p :: ps => p +:+ String sep (join sep ps)
  end.

End Py.
Export Py.

(** ** HTTP exchanges and the computation monad *)

(** What [requests.get(url, params=params)] sends. *)
Record request : Type := Request {
  method : string;
  url : string;
  params : gmap string pyval
}.

(** What the program observes of a [requests] response: the [ok] flag
    (the status is a success status) and the body text that [json()]
    decodes. *)
Record response : Type := Response {
  ok : bool;
  text : string
}.

(** The network answers a request with a response, or the transport fails
    with an exception. *)
Definition reply : Type := exn + response.

Definition exchange : Type := request * reply.

Inductive outcome (A : Type) : Type :=
  | Returned (a : A)
  | Raised (e : exn).
Arguments Returned {A} a.
Arguments Raised {A} e.

(** A computation takes the log of the exchanges made so far and gives its
    outcome with the extended log. *)
Definition M (A : Type) : Type := list exchange -> outcome A * list exchange.

Definition ret {A} (a : A) : M A := fun log => (Returned a, log).

Definition raise {A} (e : exn) : M A := fun log => (Raised e, log).

Definition bind {A B} (m : M A) (k : A -> M B) : M B :=
  fun log =>
    match m log with
    | (Returned a, log') => k a log'
    | (Raised e, log') => (Raised e, log')
    end.

(** [try: m  except Exception as e: h e]. *)
Definition try_except {A} (m : M A) (h : exn -> M A) : M A :=
  fun log =>
    match m log with
    | (Returned a, log') => (Returned a, log')
    | (Raised e, log') => h e log'
    end.

Notation "'let*' x ':=' m 'in' k" := (bind m (fun x => k))
  (at level 10, x name, m at level 100, k at level 200).

(** Running a computation from the empty log. *)
Definition run {A} (m : M A) : outcome A * list exchange := m [].

Definition result_of {A} (m : M A) : outcome A := fst (run m).

Definition exchanges_of {A} (m : M A) : list exchange := snd (run m).

(** [v[k]] for a string key [k]: a dictionary gives the value or raises
    [KeyError]; every other value raises [TypeError] (sequences want integer
    indices, the rest is not subscriptable). *)
Definition getitem (v : pyval) (k : string) : M pyval :=
  match v with
  | PDict d =>
      match d !! k with
      | Some x => ret x
      | None => raise (KeyError k)
      end
  | PList _ => raise (TypeError "list indices must be integers or slices, not str")
  | PStr _ => raise (TypeError "string indices must be integers, not 'str'")
  | _ => raise (TypeError "object is not subscriptable")
  end.

(** [args[i]] on a list. *)
Definition index (args : list string) (i : nat) : M string :=
  match args !! i with
  | Some s => ret s
  | None => raise (IndexError "list index out of range")
  end.

(** [v.split(':')]: defined on strings; [None] has no attribute [split]. *)
Definition method_split (v : pyval) (sep : ascii) : M (list string) :=
  match v with
  | PStr s => ret (split sep s)
  | _ => raise (AttributeError "object has no attribute 'split'")
  end.

(** [request.form.get(key)]: the first value posted under [key], or [None]. *)
Fixpoint form_get (form : list (string * string)) (key : string) : pyval :=
  match form with
  | [] => PNone
  | (k, v) :: rest => if String.eqb k key then PStr v else form_get rest key
  end.

(** What a view function returns: [jsonify] applied to keyword arguments,
    or [None]. *)
Inductive view_return : Type :=
  | jsonify (kwargs : gmap string pyval)
  | ReturnNone.

(** ** The program *)

Section Relay.

(** [os.environ]. *)
Variable environ : gmap string string.
(** The JSON decoder behind [response.json()]; [None] on a body that is not
    valid JSON. *)
Variable loads : string -> option pyval.
(** The network behind [requests.get]. *)
Variable net : request -> reply.

(** [os.environ.get(key)]. *)
Definition environ_get (key : string) : pyval :=
  match environ !! key with
  | Some v => PStr v
  | None => PNone
  end.

Definition USERNAME : pyval := environ_get "MG_USERNAME".
Definition PASSWORD : pyval := environ_get "MG_PASSWORD".
Definition GAVIN_ID : string := "16191858".

Definition MG_URL : string :=
  "http://version1.api.memegenerator.net/Instance_Create".

(** [requests.get(url, params=params)]: one exchange with the network,
    appended to the log whether it succeeds or not. *)
Definition requests_get (u : string) (ps : gmap string pyval) : M response :=
  fun log =>
    let rq := {| method := "GET"; url := u; params := ps |} in
    match net rq with
    | inl e => (Raised e, log ++ [(rq, inl e)])
    | inr r => (Returned r, log ++ [(rq, inr r)])
    end.

(** [response.json()]. *)
Definition json (r : response) : M pyval :=
  match loads (text r) with
  | Some v => ret v
  | None => raise (JSONDecodeError (text r))
  end.

(** The [params] dictionary of [get_meme]. *)
Definition meme_params (image_id : string) (text0 text1 : pyval)
  : gmap string pyval :=
  dict [ ("username", USERNAME);
         ("password", PASSWORD);
         ("languageCode", PStr "en");
         ("text0", py_or text0 (PStr ""));
         ("text1", py_or text1 (PStr ""));
         ("imageID", PStr image_id);
         ("generatorID", PStr "6693723") ].

Definition get_meme (image_id : string) (text0 text1 : pyval) : M pyval :=
  let params := meme_params image_id text0 text1 in
  let* response := requests_get MG_URL params in
  if ok response then
    let* r_json := json response in
    let* img_url :=
      try_except
        (let* result := getitem r_json "result" in
         getitem result "instanceImageUrl")
        (fun e => raise (Exception r_json e)) in
    ret img_url
  else ret PNone.

(** The view.  [image_id] is the path segment of [/<image_id>/], absent for
    the route [/], where the default [GAVIN_ID] applies. *)
Definition thinking (image_id : option string) (form : list (string * string))
  : M view_return :=
  let image_id := default GAVIN_ID image_id in
  let* args := method_split (form_get form "text") ":" in
  let* img :=
    if 1 <? length args then
      let* a0 := index args 0 in
      let* a1 := index args 1 in
      get_meme image_id (PStr a0) (PStr a1)
    else
      let* a0 := index args 0 in
      get_meme image_id (PStr a0) PNone in
  if truthy img then
    ret (jsonify (dict [ ("response_type", PStr "in_channel");
                         ("attachments",
                          PList [ PDict (dict [ ("text", img);
                                                ("image_url", img) ]) ]) ]))
  else ret ReturnNone.

End Relay.

(** ** Vocabulary of the properties *)

(** The value found at the path [result.instanceImageUrl] of a decoded JSON
    document, when the document has that path: the document and its
    [result] member are both objects and the members exist. *)
Definition instance_image_url (j : pyval) : option pyval :=
  match j with
  | PDict d =>
      match d !! "result" with
      | Some (PDict d') => d' !! "instanceImageUrl"
      | _ => None
      end
  | _ => None
  end.

(** The keys of the query of a meme request. *)
Definition query_keys : gset string :=
  {[ "username"; "password"; "languageCode"; "text0"; "text1"; "imageID";
     "generatorID" ]}.

(** The chat attachment response around an image: the keyword arguments
    [response_type = "in_channel"] and [attachments], a list of one object
    whose [text] and [image_url] are both the image. *)
Definition chat_payload (img : pyval) : gmap string pyval :=
  {[ "response_type" := PStr "in_channel";
     "attachments" := PList [ PDict {[ "text" := img; "image_url" := img ]} ] ]}.

(** The request that [get_meme] hands to [requests.get]. *)
Definition meme_request (environ : gmap string string) (image_id : string)
    (text0 text1 : pyval) : request :=
  {| method := "GET"; url := MG_URL;
     params := meme_params environ image_id text0 text1 |}.

(** The [text1] argument that [thinking] passes to [get_meme], from the
    pieces after the first one: the second piece, or [None]. *)
Definition second_caption (ps : list string) : pyval :=
  match ps with
  | [] => PNone
  | p1 :: _ => PStr p1
  end.

(** How [thinking] ends once [get_meme] is back. *)
Definition respond (o : outcome pyval) : outcome view_return :=
  match o with
  | Returned img =>
      if truthy img then Returned (jsonify (chat_payload img))
      else Returned ReturnNone
  | Raised e => Raised e
  end.

(** The exceptions that a subscript with a string key raises. *)
Definition lookup_error (e : exn) : Prop :=
  match e with
  | KeyError _ | TypeError _ => True
  | _ => False
  end.

(** The form has no field named [key]. *)
Definition lacks_field (form : list (string * string)) (key : string) : Prop :=
  forall v, ~ In (key, v) form.

(** ** A concrete world, for the examples *)

Module Sample.

Definition environ : gmap string string :=
  {[ "MG_USERNAME" := "gavin"; "MG_PASSWORD" := "belson" ]}.

(** The double quote character, and a quoted JSON string. *)
Definition dq : string := String (ascii_of_nat 34) EmptyString.
Definition quoted (s : string) : string := dq +:+ s +:+ dq.

(** The body [{"result": {"instanceImageUrl": u}}]. *)
Definition body_with_url (u : string) : string :=
  "{" +:+ quoted "result" +:+ ": {" +:+ quoted "instanceImageUrl" +:+ ": "
      +:+ quoted u +:+ "}}".

(** The body [{"success": false}]. *)
Definition body_without_url : string :=
  "{" +:+ quoted "success" +:+ ": false}".

Definition decoded_with_url (u : string) : pyval :=
  PDict {[ "result" := PDict {[ "instanceImageUrl" := PStr u ]} ]}.

Definition decoded_without_url : pyval :=
  PDict {[ "success" := PBool false ]}.

(** A decoder that knows the JSON documents of the examples and rejects
    every other text. *)
Definition loads (s : string) : option pyval :=
  if String.eqb s (body_with_url "http://x/y.jpg")
  then Some (decoded_with_url "http://x/y.jpg")
  else if String.eqb s (body_with_url "")
  then Some (decoded_with_url "")
  else if String.eqb s body_without_url
  then Some decoded_without_url
  else None.

(** Networks that answer every request the same way. *)
Definition net_answering (r : response) : request -> reply := fun _ => inr r.

Definition net_url : request -> reply :=
  net_answering {| ok := true; text := body_with_url "http://x/y.jpg" |}.

Definition net_empty_url : request -> reply :=
  net_answering {| ok := true; text := body_with_url "" |}.

Definition net_without_url : request -> reply :=
  net_answering {| ok := true; text := body_without_url |}.

Definition net_html : request -> reply :=
  net_answering {| ok := true; text := "<html>Bad Gateway</html>" |}.

Definition net_declined : request -> reply :=
  net_answering {| ok := false; text := "Forbidden" |}.

Definition form_of (t : string) : list (string * string) :=
  [ ("token", "xoxb"); ("text", t) ].

(** A network that cannot be reached. *)
Definition net_down : request -> reply :=
  fun _ => inl (RequestException "connection refused").

(** A decoder that reads every body as the document [j]. *)
Definition loads_as (j : pyval) : string -> option pyval := fun _ => Some j.

(** The documents [{"result": {"instanceImageUrl": null}}],
    [{"result": {"instanceImageUrl": 7}}] and [{"result": {}}]. *)
Definition decoded_null_url : pyval :=
  PDict {[ "result" := PDict {[ "instanceImageUrl" := PNone ]} ]}.

Definition decoded_number_url : pyval :=
  PDict {[ "result" := PDict {[ "instanceImageUrl" := PInt 7 ]} ]}.

Definition decoded_empty_result : pyval :=
  PDict {[ "result" := PDict ∅ ]}.

End Sample.

(** ** Properties of [split] *)

Lemma append_empty_r (s : string) : s +:+ "" = s.
Proof.
  induction s as [|c s IH]; [reflexivity|].
  change (String c (s +:+ "") = String c s). now f_equal.
Qed.

Lemma split_nonempty sep s : split sep s <> [].
Proof.
  destruct s as [|c s]; simpl; [discriminate|].
  destruct (Ascii.eqb c sep); [discriminate|].
  destruct (split sep s); discriminate.
Qed.

Lemma split_length sep s : length (split sep s) = S (count_char sep s).
Proof.
  induction s as [|c s IH]; simpl; [reflexivity|].
  destruct (Ascii.eqb c sep); simpl.
  - now rewrite IH.
  - destruct (split sep s) as [|p ps] eqn:E; simpl in *; [discriminate|].
    exact IH.
Qed.

Lemma split_no_sep sep s : count_char sep s = 0 -> split sep s = [s].
Proof.
  induction s as [|c s IH]; simpl; [reflexivity|].
  destruct (Ascii.eqb c sep); simpl; [discriminate|].
  intros H. now rewrite (IH H).
Qed.

Lemma split_app_sep sep a b :
  count_char sep a = 0 ->
  split sep (a +:+ String sep b) = a :: split sep b.
Proof.
  induction a as [|c a IH]; simpl.
  - intros _. now rewrite Ascii.eqb_refl.
  - destruct (Ascii.eqb c sep); simpl; [discriminate|].
    intros H. now rewrite (IH H).
Qed.

(** No piece contains the separator, and joining the pieces with the
    separator gives the string back: [split] loses nothing and cuts at every
    occurrence. *)
Lemma split_pieces sep s p : In p (split sep s) -> count_char sep p = 0.
Proof.
  revert p. induction s as [|c s IH]; simpl; intros p Hp.
  - destruct Hp as [<-|[]]. reflexivity.
  - destruct (Ascii.eqb c sep) eqn:Ec.
    + destruct Hp as [<-|Hp]; [reflexivity | now apply IH].
    + destruct (split sep s) as [|q qs]; simpl in *.
      * destruct Hp as [<-|[]]. simpl. now rewrite Ec.
      * destruct Hp as [<-|Hp].
        -- simpl. rewrite Ec. apply IH. now left.
        -- apply IH. now right.
Qed.

Lemma join_split sep s : join sep (split sep s) = s.
Proof.
  induction s as [|c s IH]; simpl; [reflexivity|].
  pose proof (split_nonempty sep s) as Hne.
  destruct (Ascii.eqb c sep) eqn:Ec.
  - apply Ascii.eqb_eq in Ec. subst c.
    destruct (split sep s) as [|q qs]; [contradiction|].
    change (String sep (join sep (q :: qs)) = String sep s). now f_equal.
  - destruct (split sep s) as [|q qs]; [contradiction|].
    destruct qs as [|q' qs].
    + simpl in *. now f_equal.
    + change (String c (join sep (q :: q' :: qs)) = String c s). now f_equal.
Qed.

Example split_three : split ":" "a:b:c" = ["a"; "b"; "c"].
Proof. reflexivity. Qed.

Example split_trailing : split ":" "a:" = ["a"; ""].
Proof. reflexivity. Qed.

Example split_empty : split ":" "" = [""].
Proof. reflexivity. Qed.

(** ** The behaviour of [get_meme] and [thinking] *)

Section RelayProperties.

Variable environ : gmap string string.
Variable loads : string -> option pyval.
Variable net : request -> reply.

#[local] Abbreviation get_meme' := (get_meme environ loads net).
#[local] Abbreviation thinking' := (thinking environ loads net).
#[local] Abbreviation meme_request' := (meme_request environ).

Ltac unfold_monad :=
  unfold meme_request in *;
  unfold get_meme, requests_get, json, getitem, try_except, bind, ret, raise.

(** [get_meme] performs one exchange, whatever its outcome. *)
Lemma get_meme_log image_id text0 text1 log :
  snd (get_meme' image_id text0 text1 log) =
  log ++ [(meme_request' image_id text0 text1,
           net (meme_request' image_id text0 text1))].
Proof.
  unfold_monad.
  destruct (net _) as [e|r]; [reflexivity|].
  destruct (ok r); [|reflexivity].
  destruct (loads (text r)) as [j|]; [|reflexivity].
  destruct j as [| | | | | |d]; try reflexivity.
  destruct (d !! "result") as [x|]; [|reflexivity].
  destruct x as [| | | | | |d']; try reflexivity.
  destruct (d' !! "instanceImageUrl"); reflexivity.
Qed.

(** A transport failure is raised to the caller. *)
Lemma get_meme_transport image_id text0 text1 log e :
  net (meme_request' image_id text0 text1) = inl e ->
  fst (get_meme' image_id text0 text1 log) = Raised e.
Proof. intros H. unfold_monad. now rewrite H. Qed.

(** A response that is not [ok]: [get_meme] falls off its end and returns
    [None]. *)
Lemma get_meme_declined image_id text0 text1 log r :
  net (meme_request' image_id text0 text1) = inr r ->
  ok r = false ->
  fst (get_meme' image_id text0 text1 log) = Returned PNone.
Proof. intros H Hok. unfold_monad. now rewrite H, Hok. Qed.

(** An [ok] response whose body does not decode: the decoder's exception. *)
Lemma get_meme_undecodable image_id text0 text1 log r :
  net (meme_request' image_id text0 text1) = inr r ->
  ok r = true ->
  loads (text r) = None ->
  fst (get_meme' image_id text0 text1 log) = Raised (JSONDecodeError (text r)).
Proof. intros H Hok Hj. unfold_monad. now rewrite H, Hok, Hj. Qed.

(** An [ok] response with the path: the value at the path. *)
Lemma get_meme_found image_id text0 text1 log r j v :
  net (meme_request' image_id text0 text1) = inr r ->
  ok r = true ->
  loads (text r) = Some j ->
  instance_image_url j = Some v ->
  fst (get_meme' image_id text0 text1 log) = Returned v.
Proof.
  intros H Hok Hj Hv. unfold_monad. rewrite H, Hok, Hj.
  destruct j as [| | | | | |d]; try discriminate. simpl in Hv |- *.
  destruct (d !! "result") as [x|]; [|discriminate].
  destruct x as [| | | | | |d']; try discriminate.
  now rewrite Hv.
Qed.

(** An [ok] response without the path: the decoded body, wrapped. *)
Lemma get_meme_missing image_id text0 text1 log r j :
  net (meme_request' image_id text0 text1) = inr r ->
  ok r = true ->
  loads (text r) = Some j ->
  instance_image_url j = None ->
  exists cause,
    fst (get_meme' image_id text0 text1 log) = Raised (Exception j cause).
Proof.
  intros H Hok Hj Hv. unfold_monad. rewrite H, Hok, Hj.
  destruct j as [| | | | | |d]; simpl; eauto.
  simpl in Hv.
  destruct (d !! "result") as [x|]; simpl; eauto.
  destruct x as [| | | | | |d']; simpl; eauto.
  rewrite Hv. simpl. eauto.
Qed.

Lemma chat_payload_dict img :
  dict [ ("response_type", PStr "in_channel");
         ("attachments",
          PList [ PDict (dict [ ("text", img); ("image_url", img) ]) ]) ]
  = chat_payload img.
Proof.
  unfold dict, chat_payload. simpl.
  rewrite (insert_insert_ne (M:=gmap string) ∅ "image_url" "text") by discriminate.
  now rewrite (insert_insert_ne (M:=gmap string) ∅ "attachments" "response_type")
    by discriminate.
Qed.

(** With a [text] field, [thinking] calls [get_meme] once, on the first
    piece of the text and on the second piece if there is one, and answers
    from what [get_meme] gives. *)
Lemma thinking_text image_id form t :
  form_get form "text" = PStr t ->
  exists p0 ps,
    split ":" t = p0 :: ps /\
    let rq := meme_request' (default GAVIN_ID image_id) (PStr p0)
                (second_caption ps) in
    exchanges_of (thinking' image_id form) = [(rq, net rq)] /\
    result_of (thinking' image_id form) =
      respond (fst (get_meme' (default GAVIN_ID image_id) (PStr p0)
                      (second_caption ps) [])).
Proof.
  intros Ht.
  destruct (split ":" t) as [|p0 ps] eqn:E; [now apply split_nonempty in E|].
  exists p0, ps. split; [reflexivity|].
  unfold exchanges_of, result_of, run, thinking, method_split, bind at 1.
  rewrite Ht. unfold ret at 1. rewrite E.
  pose proof (get_meme_log (default GAVIN_ID image_id) (PStr p0)
                (second_caption ps) []) as Hlog.
  destruct ps as [|p1 ps]; simpl in *; unfold bind, index; simpl;
    unfold ret at 1; simpl;
    destruct (get_meme' _ _ _ []) as [[img|e] l]; simpl in *; subst l;
    try (split; reflexivity);
    destruct (truthy img); unfold ret; simpl; rewrite ?chat_payload_dict;
    split; reflexivity.
Qed.

Lemma form_get_lacks form key : lacks_field form key -> form_get form key = PNone.
Proof.
  induction form as [|[k v] form IH]; intros H; simpl; [reflexivity|].
  destruct (String.eqb k key) eqn:E.
  - apply String.eqb_eq in E. subst k. exfalso. apply (H v). now left.
  - apply IH. intros w Hw. apply (H w). now right.
Qed.

(** Without a [text] field the view raises at [.split] and [get_meme] is
    never called. *)
Lemma thinking_no_text image_id form :
  form_get form "text" = PNone ->
  run (thinking' image_id form) =
  (Raised (AttributeError "object has no attribute 'split'"), []).
Proof. intros H. unfold run, thinking, method_split, bind. now rewrite H. Qed.

Lemma form_get_cases form key :
  form_get form key = PNone \/ exists t, form_get form key = PStr t.
Proof.
  induction form as [|[k v] form IH]; simpl; [now left|].
  destruct (String.eqb k key); [right; now exists v | exact IH].
Qed.

(** Every exchange of the view is the one exchange of its call to
    [get_meme]. *)
Lemma thinking_exchange image_id form rq rep :
  In (rq, rep) (exchanges_of (thinking' image_id form)) ->
  exists t p0 ps,
    form_get form "text" = PStr t /\
    split ":" t = p0 :: ps /\
    rq = meme_request' (default GAVIN_ID image_id) (PStr p0) (second_caption ps) /\
    rep = net rq /\
    exchanges_of (thinking' image_id form) = [(rq, rep)] /\
    result_of (thinking' image_id form) =
      respond (fst (get_meme' (default GAVIN_ID image_id) (PStr p0)
                      (second_caption ps) [])).
Proof.
  intros Hin.
  destruct (form_get_cases form "text") as [Hn|[t Ht]].
  - unfold exchanges_of in Hin. rewrite (thinking_no_text _ _ Hn) in Hin.
    destruct Hin.
  - destruct (thinking_text image_id form t Ht) as (p0 & ps & E & Hlog & Hres).
    rewrite Hlog in Hin. destruct Hin as [Heq|[]].
    injection Heq as Hrq Hrep. subst rq rep.
    exists t, p0, ps. repeat split; assumption.
Qed.

Lemma meme_params_text0 image_id text0 text1 :
  meme_params environ image_id text0 text1 !! "text0" = Some (py_or text0 (PStr "")).
Proof. reflexivity. Qed.

Lemma meme_params_text1 image_id text0 text1 :
  meme_params environ image_id text0 text1 !! "text1" = Some (py_or text1 (PStr "")).
Proof. reflexivity. Qed.

Lemma meme_params_image_id image_id text0 text1 :
  meme_params environ image_id text0 text1 !! "imageID" = Some (PStr image_id).
Proof. reflexivity. Qed.

Lemma meme_params_dom image_id text0 text1 :
  dom (meme_params environ image_id text0 text1) = query_keys.
Proof.
  unfold meme_params, dict, query_keys. simpl.
  rewrite !dom_insert_L, dom_empty_L. set_solver.
Qed.

(** [x or ''] leaves a string as it is, the empty one included. *)
Lemma py_or_str s : py_or (PStr s) (PStr "") = PStr s.
Proof.
  unfold py_or. simpl. destruct (String.eqb s "") eqn:E; [|reflexivity].
  apply String.eqb_eq in E. now subst s.
Qed.

(** ** Properties of the handler *)

(** C1.  When the external response is [ok] and its JSON body has
    [result.instanceImageUrl] equal to a URL string [u] (not the empty
    string), the view returns [jsonify] of
    [{"response_type": "in_channel", "attachments": [{"text": u, "image_url": u}]}]:
    both attachment fields are the extracted URL. *)
Theorem url_is_relayed image_id form rq r j u :
  In (rq, inr r) (exchanges_of (thinking' image_id form)) ->
  ok r = true ->
  loads (text r) = Some j ->
  instance_image_url j = Some (PStr u) ->
  u <> "" ->
  result_of (thinking' image_id form) =
  Returned (jsonify
    {[ "response_type" := PStr "in_channel";
       "attachments" :=
         PList [ PDict {[ "text" := PStr u; "image_url" := PStr u ]} ] ]}).
Proof.
  intros Hin Hok Hj Hu Hne.
  destruct (thinking_exchange _ _ _ _ Hin) as (t & p0 & ps & _ & _ & -> & Hrep & _ & ->).
  rewrite (get_meme_found _ _ _ _ r j (PStr u)); auto.
  simpl. destruct (String.eqb u "") eqn:E; [|reflexivity].
  apply String.eqb_eq in E. contradiction.
Qed.

(** C3.  When the external response is not [ok], the view returns [None]
    (an empty result) and raises nothing. *)
Theorem declined_returns_none image_id form rq r :
  In (rq, inr r) (exchanges_of (thinking' image_id form)) ->
  ok r = false ->
  result_of (thinking' image_id form) = Returned ReturnNone.
Proof.
  intros Hin Hok.
  destruct (thinking_exchange _ _ _ _ Hin) as (t & p0 & ps & _ & _ & -> & Hrep & _ & ->).
  now rewrite (get_meme_declined _ _ _ _ r).
Qed.

(** C4.  When the external response is [ok] but its body is not valid JSON,
    or is JSON without the path [result.instanceImageUrl], the view raises:
    in the first case the decoder's error, which carries the body text, in
    the second case [Exception(r_json)], which carries the decoded body.
    The error is the outcome of the view: nothing is returned. *)
Theorem unexpected_shape_raises image_id form rq r :
  In (rq, inr r) (exchanges_of (thinking' image_id form)) ->
  ok r = true ->
  (loads (text r) = None ->
   result_of (thinking' image_id form) = Raised (JSONDecodeError (text r))) /\
  (forall j, loads (text r) = Some j -> instance_image_url j = None ->
   exists cause,
     result_of (thinking' image_id form) = Raised (Exception j cause)).
Proof.
  intros Hin Hok.
  destruct (thinking_exchange _ _ _ _ Hin) as (t & p0 & ps & _ & _ & -> & Hrep & _ & ->).
  split.
  - intros Hj. now rewrite (get_meme_undecodable _ _ _ _ r).
  - intros j Hj Hnone.
    destruct (get_meme_missing (default GAVIN_ID image_id) (PStr p0)
                (second_caption ps) [] r j) as [cause Hc]; auto.
    exists cause. now rewrite Hc.
Qed.

(** C9.  When the external response is [ok] and [result.instanceImageUrl]
    is the empty string, the view returns [None] and no attachment: the
    extracted value is tested for truth, not for presence. *)
Theorem empty_url_returns_none image_id form rq r j :
  In (rq, inr r) (exchanges_of (thinking' image_id form)) ->
  ok r = true ->
  loads (text r) = Some j ->
  instance_image_url j = Some (PStr "") ->
  result_of (thinking' image_id form) = Returned ReturnNone.
Proof.
  intros Hin Hok Hj Hu.
  destruct (thinking_exchange _ _ _ _ Hin) as (t & p0 & ps & _ & _ & -> & Hrep & _ & ->).
  now rewrite (get_meme_found _ _ _ _ r j (PStr "")).
Qed.

(** C10.  When the form has no [text] field at all, the view raises
    [AttributeError] (the call of [split] on [None]) and has made no
    outbound request. *)
Theorem missing_text_fails_before_request image_id form :
  lacks_field form "text" ->
  (exists msg, result_of (thinking' image_id form) = Raised (AttributeError msg)) /\
  exchanges_of (thinking' image_id form) = [].
Proof.
  intros H. apply form_get_lacks in H.
  unfold result_of, exchanges_of. rewrite (thinking_no_text _ _ H). simpl.
  split; [eexists; reflexivity | reflexivity].
Qed.

(** C8.  When no image identifier comes with the path (the route [/]),
    every outbound request of the view has [imageID = "16191858"]. *)
Theorem default_image_id form rq rep :
  In (rq, rep) (exchanges_of (thinking' None form)) ->
  params rq !! "imageID" = Some (PStr "16191858").
Proof.
  intros Hin.
  destruct (thinking_exchange _ _ _ _ Hin) as (t & p0 & ps & _ & _ & -> & _).
  apply meme_params_image_id.
Qed.

(** C6.  When the text has no [':'], the one outbound request has [text0]
    equal to the whole text and [text1] equal to the empty string. *)
Theorem no_colon_single_caption image_id form t :
  form_get form "text" = PStr t ->
  count_char ":" t = 0 ->
  exists rq rep,
    exchanges_of (thinking' image_id form) = [(rq, rep)] /\
    params rq !! "text0" = Some (PStr t) /\
    params rq !! "text1" = Some (PStr "").
Proof.
  intros Ht Hc.
  destruct (thinking_text image_id form t Ht) as (p0 & ps & E & Hlog & _).
  rewrite (split_no_sep _ _ Hc) in E. injection E as <- <-.
  eexists _, _. split; [exact Hlog|]. simpl.
  rewrite meme_params_text0, meme_params_text1, py_or_str. split; reflexivity.
Qed.

(** C2, as the code has it.  When the text is [a], a [':'], [b1] and a rest
    that is empty or starts with [':'], with no [':'] in [a] and [b1], the
    one outbound request has [text0 = a] and [text1 = b1], both verbatim:
    [text0] is what precedes the first [':'], [text1] is what lies between
    the first [':'] and the next one, or the end of the text if there is
    no other. *)
Theorem first_colon_splits image_id form a b1 rest :
  form_get form "text" = PStr (a +:+ ":" +:+ b1 +:+ rest) ->
  count_char ":" a = 0 ->
  count_char ":" b1 = 0 ->
  (rest = "" \/ exists r, rest = String ":" r) ->
  exists rq rep,
    exchanges_of (thinking' image_id form) = [(rq, rep)] /\
    params rq !! "text0" = Some (PStr a) /\
    params rq !! "text1" = Some (PStr b1).
Proof.
  intros Ht Ha Hb Hrest.
  destruct (thinking_text image_id form _ Ht) as (p0 & ps & E & Hlog & _).
  change (":" +:+ b1 +:+ rest) with (String ":" (b1 +:+ rest)) in E.
  rewrite (split_app_sep _ _ _ Ha) in E.
  assert (Hs : exists ps', split ":" (b1 +:+ rest) = b1 :: ps').
  { destruct Hrest as [->|[r ->]].
    - rewrite append_empty_r, (split_no_sep _ _ Hb). now exists [].
    - rewrite (split_app_sep _ _ _ Hb). now eexists. }
  destruct Hs as [ps' Hs]. rewrite Hs in E. injection E as <- <-.
  eexists _, _. split; [exact Hlog|]. simpl.
  rewrite meme_params_text0, meme_params_text1, !py_or_str. split; reflexivity.
Qed.

(** C5.  When the text has two or more [':'], its split has a first piece,
    a second piece and further pieces; the one outbound request is the meme
    request built from the first two pieces, [text0] the first and [text1]
    the second; and the further pieces are ignored: a text with the same
    first two pieces makes the view behave the same, request included. *)
Theorem extra_parts_ignored image_id form t :
  form_get form "text" = PStr t ->
  2 <= count_char ":" t ->
  exists p0 p1 rest,
    split ":" t = p0 :: p1 :: rest /\ rest <> [] /\
    (let rq := meme_request' (default GAVIN_ID image_id) (PStr p0) (PStr p1) in
     exchanges_of (thinking' image_id form) = [(rq, net rq)] /\
     params rq !! "text0" = Some (PStr p0) /\
     params rq !! "text1" = Some (PStr p1)) /\
    (forall form' t' rest',
       form_get form' "text" = PStr t' ->
       split ":" t' = p0 :: p1 :: rest' ->
       run (thinking' image_id form') = run (thinking' image_id form)).
Proof.
  intros Ht Hc.
  destruct (thinking_text image_id form t Ht) as (p0 & ps & E & Hlog & Hres).
  pose proof (split_length ":" t) as Hlen. rewrite E in Hlen. simpl in Hlen.
  destruct ps as [|p1 [|p2 rest]]; simpl in Hlen; try lia.
  exists p0, p1, (p2 :: rest). split; [exact E|]. split; [discriminate|].
  split.
  - simpl in *. split; [exact Hlog|].
    rewrite meme_params_text0, meme_params_text1, !py_or_str. split; reflexivity.
  - intros form' t' rest' Ht' E'.
    destruct (thinking_text image_id form' t' Ht') as (q0 & qs & F & Hlog' & Hres').
    rewrite E' in F. injection F as <- <-.
    unfold result_of, exchanges_of in *. simpl in *.
    rewrite (surjective_pairing (run (thinking' image_id form'))).
    rewrite (surjective_pairing (run (thinking' image_id form))).
    now rewrite Hlog, Hlog', Hres, Hres'.
Qed.

(** C7, as the code has it.  When the form has a [text] field, the view
    makes exactly one outbound request: a GET of
    [http://version1.api.memegenerator.net/Instance_Create] whose query has
    exactly the keys [username], [password], [languageCode], [text0],
    [text1], [imageID] and [generatorID], with [languageCode = "en"] and
    [generatorID = "6693723"]. *)
Theorem one_get_request image_id form t :
  form_get form "text" = PStr t ->
  exists rq rep,
    exchanges_of (thinking' image_id form) = [(rq, rep)] /\
    method rq = "GET" /\
    url rq = "http://version1.api.memegenerator.net/Instance_Create" /\
    dom (params rq) =
      {[ "username"; "password"; "languageCode"; "text0"; "text1"; "imageID";
         "generatorID" ]} /\
    params rq !! "languageCode" = Some (PStr "en") /\
    params rq !! "generatorID" = Some (PStr "6693723").
Proof.
  intros Ht.
  destruct (thinking_text image_id form t Ht) as (p0 & ps & _ & Hlog & _).
  eexists _, _. split; [exact Hlog|]. simpl.
  split; [reflexivity|]. split; [reflexivity|].
  split; [apply meme_params_dom|]. split; reflexivity.
Qed.

(** ** Further properties of the handler *)

(** The subscripts of [get_meme] fail with a [KeyError] or a [TypeError],
    which becomes the cause of the wrapping exception. *)
Lemma get_meme_missing_cause image_id text0 text1 log r j :
  net (meme_request' image_id text0 text1) = inr r ->
  ok r = true ->
  loads (text r) = Some j ->
  instance_image_url j = None ->
  exists cause,
    lookup_error cause /\
    fst (get_meme' image_id text0 text1 log) = Raised (Exception j cause).
Proof.
  intros H Hok Hj Hv. unfold_monad. rewrite H, Hok, Hj.
  destruct j as [| | | | | |d]; simpl; try (eexists; split; [|reflexivity]; exact I).
  simpl in Hv.
  destruct (d !! "result") as [x|]; simpl;
    [|eexists; split; [|reflexivity]; exact I].
  destruct x as [| | | | | |d']; simpl;
    try (eexists; split; [|reflexivity]; exact I).
  rewrite Hv. simpl. eexists; split; [|reflexivity]; exact I.
Qed.

(** What [get_meme] gives, by the reply of the network. *)
Lemma get_meme_outcome image_id text0 text1 log :
  match net (meme_request' image_id text0 text1) with
  | inl e => fst (get_meme' image_id text0 text1 log) = Raised e
  | inr r =>
      if ok r then
        match loads (text r) with
        | None =>
            fst (get_meme' image_id text0 text1 log) =
            Raised (JSONDecodeError (text r))
        | Some j =>
            match instance_image_url j with
            | Some v => fst (get_meme' image_id text0 text1 log) = Returned v
            | None =>
                exists cause,
                  lookup_error cause /\
                  fst (get_meme' image_id text0 text1 log) =
                  Raised (Exception j cause)
            end
        end
      else fst (get_meme' image_id text0 text1 log) = Returned PNone
  end.
Proof.
  destruct (net _) as [e|r] eqn:Hn; [now apply get_meme_transport|].
  destruct (ok r) eqn:Hok; [|now apply (get_meme_declined _ _ _ _ r)].
  destruct (loads (text r)) as [j|] eqn:Hj;
    [|now apply (get_meme_undecodable _ _ _ _ r)].
  destruct (instance_image_url j) as [v|] eqn:Hv.
  - now apply (get_meme_found _ _ _ _ r j).
  - now apply (get_meme_missing_cause _ _ _ _ r j).
Qed.

(** [get_meme] does not tell an absent caption from an empty one. *)
Lemma get_meme_none_caption image_id text0 :
  get_meme' image_id text0 PNone = get_meme' image_id text0 (PStr "").
Proof. reflexivity. Qed.

Lemma form_get_first pre post key v :
  lacks_field pre key -> form_get (pre ++ (key, v) :: post) key = PStr v.
Proof.
  induction pre as [|[k w] pre IH]; intros H; simpl.
  - now rewrite String.eqb_refl.
  - destruct (String.eqb k key) eqn:E.
    + apply String.eqb_eq in E. subst k. exfalso. apply (H w). now left.
    + apply IH. intros x Hx. apply (H x). now right.
Qed.

(** The view reads its form through [form.get('text')] only. *)
Lemma thinking_form image_id form form' :
  form_get form "text" = form_get form' "text" ->
  thinking' image_id form = thinking' image_id form'.
Proof. intros H. unfold thinking. now rewrite H. Qed.

(** X1.  A transport failure of [requests.get] is not caught: the view
    raises the very exception of the transport, after that one attempt. *)
Theorem transport_failure_propagates image_id form rq e :
  In (rq, inl e) (exchanges_of (thinking' image_id form)) ->
  result_of (thinking' image_id form) = Raised e /\
  exchanges_of (thinking' image_id form) = [(rq, inl e)].
Proof.
  intros Hin.
  destruct (thinking_exchange _ _ _ _ Hin)
    as (t & p0 & ps & _ & _ & -> & Hrep & Hlog & ->).
  split; [|exact Hlog].
  now rewrite (get_meme_transport _ _ _ _ e).
Qed.

(** X2.  When the response is [ok] and the body has a value [v] at
    [result.instanceImageUrl], the answer depends on the truth value of [v]
    alone, whatever its type: a true [v] is put as it is in [text] and
    [image_url], a false one ([null], [false], [0], the empty string, an
    empty array or object) gives [None]. *)
Theorem relay_by_truth_value image_id form rq r j v :
  In (rq, inr r) (exchanges_of (thinking' image_id form)) ->
  ok r = true ->
  loads (text r) = Some j ->
  instance_image_url j = Some v ->
  result_of (thinking' image_id form) =
  Returned
    (if truthy v then
       jsonify {[ "response_type" := PStr "in_channel";
                  "attachments" :=
                    PList [ PDict {[ "text" := v; "image_url" := v ]} ] ]}
     else ReturnNone).
Proof.
  intros Hin Hok Hj Hv.
  destruct (thinking_exchange _ _ _ _ Hin)
    as (t & p0 & ps & _ & _ & -> & Hrep & _ & ->).
  rewrite (get_meme_found _ _ _ _ r j v); auto.
  simpl. now destruct (truthy v).
Qed.

(** X3.  The exceptions of the view.  It raises [AttributeError] when the
    form has no [text] (and then has sent nothing); otherwise it has made
    one exchange and raises the exception of the transport, or, on an [ok]
    response, [JSONDecodeError] with the body that does not decode, or
    [Exception] with the decoded body that lacks the path, caused by a
    [KeyError] or a [TypeError].  The subscripts [args[0]] and [args[1]]
    never raise, and no [KeyError] or [TypeError] leaves the view bare. *)
Theorem raised_errors_classified image_id form e :
  result_of (thinking' image_id form) = Raised e ->
  (form_get form "text" = PNone /\
   exchanges_of (thinking' image_id form) = [] /\
   exists msg, e = AttributeError msg) \/
  (exists rq, exchanges_of (thinking' image_id form) = [(rq, inl e)]) \/
  (exists rq r,
     exchanges_of (thinking' image_id form) = [(rq, inr r)] /\
     ok r = true /\
     ((loads (text r) = None /\ e = JSONDecodeError (text r)) \/
      (exists j cause,
         loads (text r) = Some j /\ instance_image_url j = None /\
         lookup_error cause /\ e = Exception j cause))).
Proof.
  intros Hres.
  destruct (form_get_cases form "text") as [Hn|[t Ht]].
  - left. unfold result_of, exchanges_of in *.
    rewrite (thinking_no_text _ _ Hn) in *. simpl in *.
    injection Hres as <-. repeat split; eauto.
  - right.
    destruct (thinking_text image_id form t Ht) as (p0 & ps & _ & Hlog & Hr).
    simpl in Hlog. rewrite Hr in Hres. clear Hr.
    pose proof (get_meme_outcome (default GAVIN_ID image_id) (PStr p0)
                  (second_caption ps) []) as Ho.
    destruct (net _) as [e'|r] eqn:Hn.
    + rewrite Ho in Hres. injection Hres as ->. left. eauto.
    + right. eexists _, r. split; [exact Hlog|].
      destruct (ok r) eqn:Hok.
      * split; [reflexivity|].
        destruct (loads (text r)) as [j|] eqn:Hj.
        -- destruct (instance_image_url j) as [v|] eqn:Hv.
           ++ rewrite Ho in Hres. simpl in Hres.
              destruct (truthy v); discriminate Hres.
           ++ destruct Ho as (cause & Hc & Ho). rewrite Ho in Hres.
              injection Hres as <-. right. exists j, cause. auto.
        -- rewrite Ho in Hres. injection Hres as <-. now left.
      * rewrite Ho in Hres. discriminate Hres.
Qed.

(** X4.  On an [ok] response whose body decodes to an object, the cause of
    the raised exception names the key that is missing: ['result'] when the
    object has no [result] member, ['instanceImageUrl'] when [result] is an
    object without that member. *)
Theorem missing_key_is_the_cause image_id form rq r d :
  In (rq, inr r) (exchanges_of (thinking' image_id form)) ->
  ok r = true ->
  loads (text r) = Some (PDict d) ->
  (d !! "result" = None ->
   result_of (thinking' image_id form) =
   Raised (Exception (PDict d) (KeyError "result"))) /\
  (forall d', d !! "result" = Some (PDict d') ->
   d' !! "instanceImageUrl" = None ->
   result_of (thinking' image_id form) =
   Raised (Exception (PDict d) (KeyError "instanceImageUrl"))).
Proof.
  intros Hin Hok Hj.
  destruct (thinking_exchange _ _ _ _ Hin)
    as (t & p0 & ps & _ & _ & -> & Hrep & _ & ->).
  symmetry in Hrep. unfold meme_request in Hrep.
  split; [intros Hd | intros d' Hd Hd'];
    unfold_monad; rewrite Hrep, Hok, Hj; simpl; rewrite Hd; simpl;
    [|rewrite Hd']; reflexivity.
Qed.

(** X5.  A text without [':'] and the same text followed by one [':'] are
    handled alike: the absent second caption and the empty one both go out
    as [text1 = ''], so the request, the outcome and the log are the same. *)
Theorem trailing_colon_changes_nothing image_id form form' t :
  form_get form "text" = PStr t ->
  form_get form' "text" = PStr (t +:+ ":") ->
  count_char ":" t = 0 ->
  run (thinking' image_id form') = run (thinking' image_id form).
Proof.
  intros Ht Ht' Hc.
  destruct (thinking_text image_id form t Ht) as (p0 & ps & E & Hlog & Hres).
  destruct (thinking_text image_id form' _ Ht') as (q0 & qs & E' & Hlog' & Hres').
  rewrite (split_no_sep _ _ Hc) in E. injection E as <- <-.
  change (t +:+ ":") with (t +:+ String ":" "") in E'.
  rewrite (split_app_sep _ _ _ Hc) in E'. simpl in E'. injection E' as <- <-.
  unfold result_of, exchanges_of in *. simpl in *.
  rewrite (surjective_pairing (run (thinking' image_id form'))).
  rewrite (surjective_pairing (run (thinking' image_id form))).
  rewrite Hlog, Hlog', Hres, Hres'.
  now rewrite get_meme_none_caption.
Qed.

(** X6.  Of the posted form only the first [text] field counts: fields
    with other names, before or after it, and later [text] fields change
    nothing to what the view does. *)
Theorem first_text_field_counts image_id pre post t :
  lacks_field pre "text" ->
  run (thinking' image_id (pre ++ ("text", t) :: post)) =
  run (thinking' image_id [("text", t)]).
Proof.
  intros H. unfold run.
  now rewrite (thinking_form image_id (pre ++ ("text", t) :: post) [("text", t)])
    by (now rewrite form_get_first).
Qed.

(** X7.  The request in full.  With a [text] field [t], the one exchange
    of the view is a GET of the API URL with the query: [username] and
    [password] as [os.environ.get] gives them ([None] when unset),
    [languageCode = 'en'], [text0] the first piece of [t], [text1] the
    second piece or [''], [imageID] the path segment or ['16191858'], and
    [generatorID = '6693723']. *)
Theorem request_in_full image_id form t :
  form_get form "text" = PStr t ->
  exists rep,
    exchanges_of (thinking' image_id form) =
    [( {| method := "GET";
          url := "http://version1.api.memegenerator.net/Instance_Create";
          params :=
            {[ "username" := environ_get environ "MG_USERNAME";
               "password" := environ_get environ "MG_PASSWORD";
               "languageCode" := PStr "en";
               "text0" := PStr (hd "" (split ":" t));
               "text1" := PStr (hd "" (tl (split ":" t)));
               "imageID" := PStr (default "16191858" image_id);
               "generatorID" := PStr "6693723" ]} |},
       rep )].
Proof.
  intros Ht.
  destruct (thinking_text image_id form t Ht) as (p0 & ps & E & Hlog & _).
  rewrite E, Hlog. clear Hlog.
  unfold meme_request, meme_params. rewrite py_or_str.
  destruct ps as [|p1 ps]; simpl; rewrite ?py_or_str; eexists; reflexivity.
Qed.

(** X8.  Neither caption of an outbound request contains a [':']: both
    [text0] and [text1] are strings without the separator. *)
Theorem captions_have_no_colon image_id form rq rep :
  In (rq, rep) (exchanges_of (thinking' image_id form)) ->
  exists s0 s1,
    params rq !! "text0" = Some (PStr s0) /\
    params rq !! "text1" = Some (PStr s1) /\
    count_char ":" s0 = 0 /\ count_char ":" s1 = 0.
Proof.
  intros Hin.
  destruct (thinking_exchange _ _ _ _ Hin) as (t & p0 & ps & _ & E & -> & _).
  assert (Hp : forall p, In p (p0 :: ps) -> count_char ":" p = 0).
  { intros p Hp. apply (split_pieces ":" t). now rewrite E. }
  simpl. rewrite meme_params_text0, meme_params_text1, py_or_str.
  destruct ps as [|p1 ps]; simpl.
  - exists p0, "". repeat split. apply Hp. now left.
  - rewrite py_or_str. exists p0, p1. repeat split; apply Hp; simpl; auto.
Qed.

(** X9.  An attachment is returned only for an [ok] response whose decoded
    body has a true value at [result.instanceImageUrl], and it carries that
    value in both [text] and [image_url]. *)
Theorem attachment_only_from_true_value image_id form kwargs :
  result_of (thinking' image_id form) = Returned (jsonify kwargs) ->
  exists rq r j img,
    exchanges_of (thinking' image_id form) = [(rq, inr r)] /\
    ok r = true /\
    loads (text r) = Some j /\
    instance_image_url j = Some img /\
    truthy img = true /\
    kwargs = {[ "response_type" := PStr "in_channel";
                "attachments" :=
                  PList [ PDict {[ "text" := img; "image_url" := img ]} ] ]}.
Proof.
  intros Hres.
  destruct (form_get_cases form "text") as [Hn|[t Ht]].
  { unfold result_of in Hres. rewrite (thinking_no_text _ _ Hn) in Hres.
    discriminate Hres. }
  destruct (thinking_text image_id form t Ht) as (p0 & ps & _ & Hlog & Hr).
  simpl in Hlog. rewrite Hr in Hres. clear Hr.
  pose proof (get_meme_outcome (default GAVIN_ID image_id) (PStr p0)
                (second_caption ps) []) as Ho.
  destruct (net _) as [e'|r] eqn:Hn; [rewrite Ho in Hres; discriminate Hres|].
  destruct (ok r) eqn:Hok; [|rewrite Ho in Hres; discriminate Hres].
  destruct (loads (text r)) as [j|] eqn:Hj;
    [|rewrite Ho in Hres; discriminate Hres].
  destruct (instance_image_url j) as [v|] eqn:Hv.
  - rewrite Ho in Hres. simpl in Hres.
    destruct (truthy v) eqn:Hv'; [|discriminate Hres].
    injection Hres as <-. eexists _, r, j, v. repeat split; eauto.
  - destruct Ho as (cause & _ & Ho). rewrite Ho in Hres. discriminate Hres.
Qed.

(** X10.  [None] is returned only after one exchange whose response is
    not [ok], or is [ok] with a false value at [result.instanceImageUrl]:
    never when the form has no [text], the transport fails or the body has
    no such path. *)
Theorem none_only_if_declined_or_false image_id form :
  result_of (thinking' image_id form) = Returned ReturnNone ->
  exists rq r,
    exchanges_of (thinking' image_id form) = [(rq, inr r)] /\
    (ok r = false \/
     (ok r = true /\
      exists j v,
        loads (text r) = Some j /\ instance_image_url j = Some v /\
        truthy v = false)).
Proof.
  intros Hres.
  destruct (form_get_cases form "text") as [Hn|[t Ht]].
  { unfold result_of in Hres. rewrite (thinking_no_text _ _ Hn) in Hres.
    discriminate Hres. }
  destruct (thinking_text image_id form t Ht) as (p0 & ps & _ & Hlog & Hr).
  simpl in Hlog. rewrite Hr in Hres. clear Hr.
  pose proof (get_meme_outcome (default GAVIN_ID image_id) (PStr p0)
                (second_caption ps) []) as Ho.
  destruct (net _) as [e'|r] eqn:Hn; [rewrite Ho in Hres; discriminate Hres|].
  eexists _, r. split; [exact Hlog|].
  destruct (ok r) eqn:Hok; [right; split; [reflexivity|] | now left].
  destruct (loads (text r)) as [j|] eqn:Hj;
    [|rewrite Ho in Hres; discriminate Hres].
  destruct (instance_image_url j) as [v|] eqn:Hv.
  - rewrite Ho in Hres. simpl in Hres.
    destruct (truthy v) eqn:Hv'; [discriminate Hres|]. eauto.
  - destruct Ho as (cause & _ & Ho). rewrite Ho in Hres. discriminate Hres.
Qed.

(** X11.  The pieces that [text.split(':')] gives the view: joined again
    with [':'] they are the text, none of them contains a [':'], and there
    is one more of them than there are [':'] in the text (so at least
    one). *)
Theorem split_pieces_of_text (t : string) :
  join ":" (split ":" t) = t /\
  (forall p, In p (split ":" t) -> count_char ":" p = 0) /\
  length (split ":" t) = S (count_char ":" t).
Proof.
  split; [apply join_split|].
  split; [intros p; apply split_pieces | apply split_length].
Qed.

End RelayProperties.

(** ** The properties on a concrete world *)

Module Import Examples.
Import Sample.

(** [POST /16191858/] with [text=Hello:World], the API answering with the
    URL [http://x/y.jpg]. *)
Lemma url_is_relayed_witness :
  result_of (thinking environ loads net_url (Some "16191858")
               (form_of "Hello:World")) =
  Returned (jsonify
    {[ "response_type" := PStr "in_channel";
       "attachments" :=
         PList [ PDict {[ "text" := PStr "http://x/y.jpg";
                          "image_url" := PStr "http://x/y.jpg" ]} ] ]}).
Proof.
  apply (url_is_relayed environ loads net_url (Some "16191858")
           (form_of "Hello:World")
           (meme_request environ "16191858" (PStr "Hello") (PStr "World"))
           {| ok := true; text := body_with_url "http://x/y.jpg" |}
           (decoded_with_url "http://x/y.jpg") "http://x/y.jpg").
  - left. reflexivity.
  - reflexivity.
  - vm_compute. reflexivity.
  - reflexivity.
  - discriminate.
Defined.

Lemma declined_returns_none_witness :
  result_of (thinking environ loads net_declined None (form_of "Hello:World")) =
  Returned ReturnNone.
Proof.
  apply (declined_returns_none environ loads net_declined None
           (form_of "Hello:World")
           (meme_request environ "16191858" (PStr "Hello") (PStr "World"))
           {| ok := false; text := "Forbidden" |}).
  - left. reflexivity.
  - reflexivity.
Defined.

(** Both cases: an HTML error page with a success status, and a JSON body
    without the path. *)
Lemma unexpected_shape_raises_witness :
  result_of (thinking environ loads net_html None (form_of "Hello:World")) =
    Raised (JSONDecodeError "<html>Bad Gateway</html>") /\
  exists cause,
    result_of (thinking environ loads net_without_url None
                 (form_of "Hello:World")) =
    Raised (Exception (PDict {[ "success" := PBool false ]}) cause).
Proof.
  split.
  - apply (unexpected_shape_raises environ loads net_html None
             (form_of "Hello:World")
             (meme_request environ "16191858" (PStr "Hello") (PStr "World"))
             {| ok := true; text := "<html>Bad Gateway</html>" |}).
    + left. reflexivity.
    + reflexivity.
    + vm_compute. reflexivity.
  - apply (unexpected_shape_raises environ loads net_without_url None
             (form_of "Hello:World")
             (meme_request environ "16191858" (PStr "Hello") (PStr "World"))
             {| ok := true; text := body_without_url |}).
    + left. reflexivity.
    + reflexivity.
    + vm_compute. reflexivity.
    + reflexivity.
Defined.

Lemma empty_url_returns_none_witness :
  result_of (thinking environ loads net_empty_url None (form_of "Hello:World")) =
  Returned ReturnNone.
Proof.
  apply (empty_url_returns_none environ loads net_empty_url None
           (form_of "Hello:World")
           (meme_request environ "16191858" (PStr "Hello") (PStr "World"))
           {| ok := true; text := body_with_url "" |}
           (decoded_with_url "")).
  - left. reflexivity.
  - reflexivity.
  - vm_compute. reflexivity.
  - reflexivity.
Defined.

Lemma missing_text_fails_before_request_witness :
  (exists msg,
     result_of (thinking environ loads net_url None [("token", "xoxb")]) =
     Raised (AttributeError msg)) /\
  exchanges_of (thinking environ loads net_url None [("token", "xoxb")]) = [].
Proof.
  apply (missing_text_fails_before_request environ loads net_url None
           [("token", "xoxb")]).
  intros v [H|[]]. discriminate H.
Defined.

Lemma default_image_id_witness :
  params (meme_request environ "16191858" (PStr "Hello") PNone) !! "imageID" =
  Some (PStr "16191858").
Proof.
  apply (default_image_id environ loads net_url (form_of "Hello")
           (meme_request environ "16191858" (PStr "Hello") PNone)
           (net_url (meme_request environ "16191858" (PStr "Hello") PNone))).
  left. reflexivity.
Defined.

Lemma no_colon_single_caption_witness :
  exists rq rep,
    exchanges_of (thinking environ loads net_url None (form_of "Hello")) =
      [(rq, rep)] /\
    params rq !! "text0" = Some (PStr "Hello") /\
    params rq !! "text1" = Some (PStr "").
Proof.
  apply (no_colon_single_caption environ loads net_url None (form_of "Hello")
           "Hello").
  - reflexivity.
  - reflexivity.
Defined.

Lemma first_colon_splits_witness :
  exists rq rep,
    exchanges_of (thinking environ loads net_url None (form_of " a : b :c")) =
      [(rq, rep)] /\
    params rq !! "text0" = Some (PStr " a ") /\
    params rq !! "text1" = Some (PStr " b ").
Proof.
  apply (first_colon_splits environ loads net_url None (form_of " a : b :c")
           " a " " b " ":c").
  - reflexivity.
  - reflexivity.
  - reflexivity.
  - right. exists "c". reflexivity.
Defined.

(** The text [a:b:c]: what follows the first [':'] is [b:c], and the
    request carries [b]. *)
Lemma text1_stops_at_second_colon :
  exists rq rep,
    exchanges_of (thinking environ loads net_url None (form_of "a:b:c")) =
      [(rq, rep)] /\
    params rq !! "text0" = Some (PStr "a") /\
    params rq !! "text1" = Some (PStr "b") /\
    params rq !! "text1" <> Some (PStr "b:c").
Proof.
  eexists _, _. split; [reflexivity|].
  split; [reflexivity|]. split; [reflexivity|]. discriminate.
Defined.

Lemma extra_parts_ignored_witness :
  exists p0 p1 rest,
    split ":" "a:b:c:d" = p0 :: p1 :: rest /\ rest <> [] /\
    (let rq := meme_request environ "16191858" (PStr p0) (PStr p1) in
     exchanges_of (thinking environ loads net_url None (form_of "a:b:c:d")) =
       [(rq, net_url rq)] /\
     params rq !! "text0" = Some (PStr p0) /\
     params rq !! "text1" = Some (PStr p1)) /\
    (forall form' t' rest',
       form_get form' "text" = PStr t' ->
       split ":" t' = p0 :: p1 :: rest' ->
       run (thinking environ loads net_url None form') =
       run (thinking environ loads net_url None (form_of "a:b:c:d"))).
Proof.
  apply (extra_parts_ignored environ loads net_url None (form_of "a:b:c:d")
           "a:b:c:d").
  - reflexivity.
  - simpl. lia.
Defined.

Lemma one_get_request_witness :
  exists rq rep,
    exchanges_of (thinking environ loads net_url None (form_of "Hello:World")) =
      [(rq, rep)] /\
    method rq = "GET" /\
    url rq = "http://version1.api.memegenerator.net/Instance_Create" /\
    dom (params rq) =
      {[ "username"; "password"; "languageCode"; "text0"; "text1"; "imageID";
         "generatorID" ]} /\
    params rq !! "languageCode" = Some (PStr "en") /\
    params rq !! "generatorID" = Some (PStr "6693723").
Proof.
  apply (one_get_request environ loads net_url None (form_of "Hello:World")
           "Hello:World").
  reflexivity.
Defined.

(** A form without [text]: the view makes no request at all, not one. *)
Lemma no_text_no_request :
  exchanges_of (thinking environ loads net_url None [("token", "xoxb")]) = [] /\
  ~ exists rq rep,
      exchanges_of (thinking environ loads net_url None [("token", "xoxb")]) =
      [(rq, rep)].
Proof.
  split; [reflexivity|]. intros (rq & rep & H). discriminate H.
Defined.

(** The API cannot be reached. *)
Lemma transport_failure_propagates_witness :
  result_of (thinking environ loads net_down None (form_of "Hello:World")) =
    Raised (RequestException "connection refused") /\
  exchanges_of (thinking environ loads net_down None (form_of "Hello:World")) =
    [(meme_request environ "16191858" (PStr "Hello") (PStr "World"),
      inl (RequestException "connection refused"))].
Proof.
  apply (transport_failure_propagates environ loads net_down None
           (form_of "Hello:World")
           (meme_request environ "16191858" (PStr "Hello") (PStr "World"))
           (RequestException "connection refused")).
  left. reflexivity.
Defined.

(** A [null] URL gives [None]; the number [7] is relayed as it is. *)
Lemma relay_by_truth_value_witness :
  result_of (thinking environ (loads_as decoded_null_url) net_url None
               (form_of "Hello:World")) = Returned ReturnNone /\
  result_of (thinking environ (loads_as decoded_number_url) net_url None
               (form_of "Hello:World")) =
  Returned (jsonify
    {[ "response_type" := PStr "in_channel";
       "attachments" :=
         PList [ PDict {[ "text" := PInt 7; "image_url" := PInt 7 ]} ] ]}).
Proof.
  split.
  - apply (relay_by_truth_value environ (loads_as decoded_null_url) net_url
             None (form_of "Hello:World")
             (meme_request environ "16191858" (PStr "Hello") (PStr "World"))
             {| ok := true; text := body_with_url "http://x/y.jpg" |}
             decoded_null_url PNone).
    + left. reflexivity.
    + reflexivity.
    + reflexivity.
    + reflexivity.
  - apply (relay_by_truth_value environ (loads_as decoded_number_url) net_url
             None (form_of "Hello:World")
             (meme_request environ "16191858" (PStr "Hello") (PStr "World"))
             {| ok := true; text := body_with_url "http://x/y.jpg" |}
             decoded_number_url (PInt 7)).
    + left. reflexivity.
    + reflexivity.
    + reflexivity.
    + reflexivity.
Defined.

(** An HTML page under a success status: the third case, first branch. *)
Lemma raised_errors_classified_witness :
  let form := form_of "Hello:World" in
  let e := JSONDecodeError "<html>Bad Gateway</html>" in
  (form_get form "text" = PNone /\
   exchanges_of (thinking environ loads net_html None form) = [] /\
   exists msg, e = AttributeError msg) \/
  (exists rq,
     exchanges_of (thinking environ loads net_html None form) = [(rq, inl e)]) \/
  (exists rq r,
     exchanges_of (thinking environ loads net_html None form) = [(rq, inr r)] /\
     ok r = true /\
     ((loads (text r) = None /\ e = JSONDecodeError (text r)) \/
      (exists j cause,
         loads (text r) = Some j /\ instance_image_url j = None /\
         lookup_error cause /\ e = Exception j cause))).
Proof.
  apply (raised_errors_classified environ loads net_html None
           (form_of "Hello:World")
           (JSONDecodeError "<html>Bad Gateway</html>")).
  vm_compute. reflexivity.
Defined.

(** The bodies [{"success": false}] and [{"result": {}}]. *)
Lemma missing_key_is_the_cause_witness :
  result_of (thinking environ loads net_without_url None
               (form_of "Hello:World")) =
    Raised (Exception (PDict {[ "success" := PBool false ]})
              (KeyError "result")) /\
  result_of (thinking environ (loads_as decoded_empty_result) net_url None
               (form_of "Hello:World")) =
    Raised (Exception (PDict {[ "result" := PDict ∅ ]})
              (KeyError "instanceImageUrl")).
Proof.
  split.
  - apply (missing_key_is_the_cause environ loads net_without_url None
             (form_of "Hello:World")
             (meme_request environ "16191858" (PStr "Hello") (PStr "World"))
             {| ok := true; text := body_without_url |}
             {[ "success" := PBool false ]}).
    + left. reflexivity.
    + reflexivity.
    + vm_compute. reflexivity.
    + reflexivity.
  - apply (missing_key_is_the_cause environ (loads_as decoded_empty_result)
             net_url None (form_of "Hello:World")
             (meme_request environ "16191858" (PStr "Hello") (PStr "World"))
             {| ok := true; text := body_with_url "http://x/y.jpg" |}
             {[ "result" := PDict ∅ ]}) with (d' := ∅).
    + left. reflexivity.
    + reflexivity.
    + reflexivity.
    + reflexivity.
    + reflexivity.
Defined.

Lemma trailing_colon_changes_nothing_witness :
  run (thinking environ loads net_url None (form_of "Hello:")) =
  run (thinking environ loads net_url None (form_of "Hello")).
Proof.
  apply (trailing_colon_changes_nothing environ loads net_url None
           (form_of "Hello") (form_of "Hello:") "Hello").
  - reflexivity.
  - reflexivity.
  - reflexivity.
Defined.

Lemma first_text_field_counts_witness :
  run (thinking environ loads net_url None
         ([("token", "xoxb"); ("user_name", "gavin")] ++
          ("text", "Hello:World") :: [("text", "Bye"); ("channel", "C1")])) =
  run (thinking environ loads net_url None [("text", "Hello:World")]).
Proof.
  apply (first_text_field_counts environ loads net_url None
           [("token", "xoxb"); ("user_name", "gavin")]
           [("text", "Bye"); ("channel", "C1")] "Hello:World").
  intros v [H|[H|[]]]; discriminate H.
Defined.

(** [POST /42/] with [text=Hello:World:again]. *)
Lemma request_in_full_witness :
  exists rep,
    exchanges_of (thinking environ loads net_url (Some "42")
                    (form_of "Hello:World:again")) =
    [( {| method := "GET";
          url := "http://version1.api.memegenerator.net/Instance_Create";
          params :=
            {[ "username" := environ_get environ "MG_USERNAME";
               "password" := environ_get environ "MG_PASSWORD";
               "languageCode" := PStr "en";
               "text0" := PStr (hd "" (split ":" "Hello:World:again"));
               "text1" := PStr (hd "" (tl (split ":" "Hello:World:again")));
               "imageID" := PStr (default "16191858" (Some "42"));
               "generatorID" := PStr "6693723" ]} |},
       rep )].
Proof.
  apply (request_in_full environ loads net_url (Some "42")
           (form_of "Hello:World:again") "Hello:World:again").
  reflexivity.
Defined.

Lemma captions_have_no_colon_witness :
  exists s0 s1,
    params (meme_request environ "16191858" (PStr "a") (PStr "b")) !! "text0" =
      Some (PStr s0) /\
    params (meme_request environ "16191858" (PStr "a") (PStr "b")) !! "text1" =
      Some (PStr s1) /\
    count_char ":" s0 = 0 /\ count_char ":" s1 = 0.
Proof.
  apply (captions_have_no_colon environ loads net_url None (form_of "a:b:c")
           (meme_request environ "16191858" (PStr "a") (PStr "b"))
           (net_url (meme_request environ "16191858" (PStr "a") (PStr "b")))).
  left. reflexivity.
Defined.

Lemma attachment_only_from_true_value_witness :
  exists rq r j img,
    exchanges_of (thinking environ loads net_url None (form_of "Hello:World")) =
      [(rq, inr r)] /\
    ok r = true /\
    loads (text r) = Some j /\
    instance_image_url j = Some img /\
    truthy img = true /\
    chat_payload (PStr "http://x/y.jpg") =
      {[ "response_type" := PStr "in_channel";
         "attachments" :=
           PList [ PDict {[ "text" := img; "image_url" := img ]} ] ]}.
Proof.
  apply (attachment_only_from_true_value environ loads net_url None
           (form_of "Hello:World") (chat_payload (PStr "http://x/y.jpg"))).
  vm_compute. reflexivity.
Defined.

Lemma none_only_if_declined_or_false_witness :
  exists rq r,
    exchanges_of (thinking environ loads net_declined None
                    (form_of "Hello:World")) = [(rq, inr r)] /\
    (ok r = false \/
     (ok r = true /\
      exists j v,
        loads (text r) = Some j /\ instance_image_url j = Some v /\
        truthy v = false)).
Proof.
  apply (none_only_if_declined_or_false environ loads net_declined None
           (form_of "Hello:World")).
  reflexivity.
Defined.

End Examples.
